(** * The shelter edit form: update call, validation schema, form workflow
      and the Select primitive, embedded from the TypeScript sources. *)

From Stdlib Require Import NArith String Ascii List Bool Lia.
From stdpp Require Import base decidable option list strings gmap fin_maps.
Import ListNotations.

Set Warnings "-register-all".

Open Scope string_scope.
Open Scope nat_scope.

(** ** JavaScript strings

    The text the user types is inspected by [length] and by the character
    class [\D], both of which work on UTF-16 code units, so user text is a
    list of code units.  Fixed interface texts (messages, paths, keys) are
    never inspected and stay literals. *)

Definition code_unit := N.
Definition jsstring := list code_unit.

(** A literal of ASCII characters as a JavaScript string. *)
Definition js (s : string) : jsstring :=
  List.map N_of_ascii (list_ascii_of_string s).

(** [\d] without the unicode flag: the ten ASCII digits. *)
Definition is_digit (c : code_unit) : bool :=
  ((48 <=? c) && (c <=? 57))%N.

(** [value.replace(/\D/g, "")]: every code unit that is not a digit is
    replaced by the empty string. *)
Definition replace_non_digits (value : jsstring) : jsstring :=
  List.filter is_digit value.

(** ** Data model *)

(** [z.infer<typeof shelterSchema>]: the values held by the form. *)
Record ShelterSchema := mkShelterSchema {
  name : jsstring;
  email : jsstring;
  phone : jsstring;
  whatsApp : jsstring
}.

(** The object literal handed to [updateShelter]. *)
Record IUpdateShelterRequest := mkRequest {
  req_name : jsstring;
  req_email : jsstring;
  req_phone : jsstring;
  req_whatsApp : jsstring
}.

(** The record returned by [useShelter], with the fields the form reads. *)
Record ShelterData := mkShelterData {
  shelterName : jsstring;
  shelterEmail : jsstring;
  shelterPhone : jsstring;
  shelterWhatsApp : jsstring
}.

#[global] Instance ShelterSchema_eq_dec : EqDecision ShelterSchema.
Proof. solve_decision. Defined.

#[global] Instance IUpdateShelterRequest_eq_dec : EqDecision IUpdateShelterRequest.
Proof. solve_decision. Defined.

(** ** The validation schema *)

Record ZodIssue := mkIssue {
  path : string;
  message : string
}.

(** [.min(n, message)] and [.max(n, message)] of [z.string()]: each check
    adds its own issue and the next check still runs. *)
Definition z_min (n : nat) (msg : string) (field : string) (v : jsstring)
  : list ZodIssue :=
  if length v <? n then [mkIssue field msg] else [].

Definition z_max (n : nat) (msg : string) (field : string) (v : jsstring)
  : list ZodIssue :=
  if n <? length v then [mkIssue field msg] else [].

(** [.refine(pred, { message })]. *)
Definition z_refine (pred : jsstring -> bool) (msg : string) (field : string)
  (v : jsstring) : list ZodIssue :=
  if pred v then [] else [mkIssue field msg].

(** The predicate given to [refine] for [phone] and for [whatsApp]. *)
Definition digits_in_range (value : jsstring) : bool :=
  let digits := length (replace_non_digits value) in
  (10 <=? digits) && (digits <=? 11).

(** Field errors of react-hook-form: a JavaScript object from field name
    to message. *)
Abbreviation FieldErrors := (gmap string string).

(** The resolver keeps the first issue of each path. *)
Definition add_issue (errors : FieldErrors) (i : ZodIssue) : FieldErrors :=
  match errors !! path i with
  | Some _ => errors
  | None => <[path i := message i]> errors
  end.

Definition parseErrorSchema (issues : list ZodIssue) : FieldErrors :=
  fold_left add_issue issues ∅.

(** [isEmptyObject(errors)]. *)
Definition isEmptyObject (errors : FieldErrors) : bool :=
  bool_decide (errors = ∅).

Section Validation.

(** The email pattern belongs to the schema library; the form only asks
    whether the value matches. *)
Variable is_email : jsstring -> bool.

Definition shelterSchema (v : ShelterSchema) : list ZodIssue :=
  (z_min 2 "Nome deve ter no minínimo 2 caracteres" "name" (name v)
     ++ z_max 30 "Nome deve ter no máximo 30 caracteres" "name" (name v))
  ++ z_refine is_email "Campo deve ser um email" "email" (email v)
  ++ z_refine digits_in_range "Número deve ter entre 10 e 11 caracteres"
       "phone" (phone v)
  ++ z_refine digits_in_range "Número deve ter entre 10 e 11 caracteres"
       "whatsApp" (whatsApp v).

(** [zodResolver(shelterSchema)]: the errors shown by the form; the
    parsed values are the input values, every field being a plain string. *)
Definition zodResolver (v : ShelterSchema) : FieldErrors :=
  parseErrorSchema (shelterSchema v).

End Validation.

(** ** The Select primitive *)

(** Values a caller can put on the native element: a string, a class name
    of a style sheet, or anything else (a handler, a flag), kept opaque. *)
Inductive AttrValue :=
| AString (s : jsstring)
| AClass (c : string)
| AOpaque (tag : nat).

#[global] Instance AttrValue_eq_dec : EqDecision AttrValue.
Proof. solve_decision. Defined.

(** [Ref<HTMLSelectElement>]: [None] is the null ref. *)
Definition Ref := option nat.

(** React elements, with [key] and [ref] apart from the props as
    [createElement] stores them. *)
Inductive Node :=
| Text (s : jsstring)
| Elem (tag : string) (key : option jsstring) (ref : Ref)
       (props : gmap string AttrValue) (children : list Node).

Record SelectOption := mkOption {
  value : jsstring;
  text : jsstring
}.

(** [ISelect]: [label], [options] and whatever else the native select
    takes, collected by the rest pattern. *)
Record ISelect := mkISelect {
  label : jsstring;
  options : list SelectOption;
  rest : gmap string AttrValue
}.

(** The class names exported by [Select.module.css]. *)
Record SelectStyles := mkSelectStyles {
  selectGroup : string;
  selectBase : string
}.

Definition render_option (o : SelectOption) : Node :=
  Elem "option" (Some (value o)) None
       {["value" := AString (value o)]}
       [Text (text o)].

(** The [select] takes the rest of the props first, then its own
    [className]; its children are the options, which take the place of
    a [children] prop that came with the rest. *)
Definition FowardedSelect (styles : SelectStyles) (p : ISelect) (ref : Ref)
  : Node :=
  Elem "div" None None {["className" := AClass (selectGroup styles)]}
    [ Elem "label" None None ∅ [Text (label p)];
      Elem "select" None ref
        (<["className" := AClass (selectBase styles)]>
           (delete "children" (rest p)))
        (List.map render_option (options p)) ].

(** Accessors used to read a rendered tree. *)
Definition node_children (n : Node) : list Node :=
  match n with
  | Text _ => []
  | Elem _ _ _ _ cs => cs
  end.

Definition node_props (n : Node) : gmap string AttrValue :=
  match n with
  | Text _ => ∅
  | Elem _ _ _ ps _ => ps
  end.

Definition node_tag (n : Node) : option string :=
  match n with
  | Text _ => None
  | Elem t _ _ _ _ => Some t
  end.

(** The [select] element of a rendered Select, its second child. *)
Definition select_element (n : Node) : option Node :=
  node_children n !! 1.

(** ** Form state *)

(** The part of react-hook-form's state the component reads.  The input
    mask of the two number fields shapes what the user types; the handler
    receives the values as the form holds them.  [defaultValues] is
    [None] as long as the form has none: [useForm] is called without
    default values and only [reset] gives some.  [isDirty] is the flag
    [formState.isDirty] as the library keeps it; the component reads it
    and never computes it. *)
Record FormState := mkFormState {
  values : ShelterSchema;
  defaultValues : option ShelterSchema;
  errors : FieldErrors;
  isSubmitting : bool;
  isDirty : bool
}.

(** [reset(v)]: [v] becomes both the values and the default values, the
    errors are cleared and the form is neither dirty nor submitting. *)
Definition reset (v : ShelterSchema) (f : FormState) : FormState :=
  {| values := v; defaultValues := Some v; errors := ∅;
     isSubmitting := false; isDirty := false |}.

Definition empty_values : ShelterSchema := mkShelterSchema [] [] [] [].

(** [useForm] without default values, the inputs being empty. *)
Definition useForm_initial : FormState :=
  {| values := empty_values; defaultValues := None; errors := ∅;
     isSubmitting := false; isDirty := false |}.

(** [ButtonVariant], as far as the form uses it. *)
Inductive ButtonVariant := Default | Disabled.

(** ** Effects

    The code talks to the HTTP client, the console, the toaster and the
    query cache, and it throws and catches.  A computation takes the world
    (the events so far and the form state) and ends fulfilled or rejected
    in a new world. *)

Definition ToastId := nat.

Inductive Settled (E A : Type) :=
| Fulfilled (a : A)
| Rejected (e : E).
Arguments Fulfilled {E A} a.
Arguments Rejected {E A} e.

(** The response object of the HTTP client. *)
Record AxiosResponse (T : Type) := mkResponse {
  data : T;
  status : nat
}.
Arguments mkResponse {T} data status.
Arguments data {T} _.
Arguments status {T} _.

Inductive Event (E : Type) :=
| HttpPut (url : string) (body : IUpdateShelterRequest)
| ConsoleError (msg : string) (error : E)
| ToastLoading (id : ToastId) (msg : string)
| ToastSuccess (msg : string) (id : ToastId) (closeButton : bool)
| ToastError (msg : string) (id : ToastId) (closeButton : bool)
| InvalidateQueries (queryKey : list string).
Arguments HttpPut {E} url body.
Arguments ConsoleError {E} msg error.
Arguments ToastLoading {E} id msg.
Arguments ToastSuccess {E} msg id closeButton.
Arguments ToastError {E} msg id closeButton.
Arguments InvalidateQueries {E} queryKey.

Record World (E : Type) := mkWorld {
  history : list (Event E);
  form : FormState
}.
Arguments mkWorld {E} history form.
Arguments history {E} _.
Arguments form {E} _.

Definition is_put {E} (e : Event E) : bool :=
  match e with HttpPut _ _ => true | _ => false end.

Definition is_console_error {E} (e : Event E) : bool :=
  match e with ConsoleError _ _ => true | _ => false end.

Definition is_toast_loading {E} (e : Event E) : bool :=
  match e with ToastLoading _ _ => true | _ => false end.

Definition is_toast_success {E} (e : Event E) : bool :=
  match e with ToastSuccess _ _ _ => true | _ => false end.

Definition is_toast_error {E} (e : Event E) : bool :=
  match e with ToastError _ _ _ => true | _ => false end.

Definition is_invalidate {E} (key : list string) (e : Event E) : bool :=
  match e with
  | InvalidateQueries k => bool_decide (k = key)
  | _ => false
  end.

Definition is_any_invalidate {E} (e : Event E) : bool :=
  match e with InvalidateQueries _ => true | _ => false end.

(** How many events of a kind a history holds. *)
Definition count {E} (kind : Event E -> bool) (h : list (Event E)) : nat :=
  length (List.filter kind h).

Definition Eff (E A : Type) := World E -> Settled E A * World E.

Definition ret {E A} (a : A) : Eff E A :=
  fun w => (Fulfilled a, w).

Definition throw {E A} (e : E) : Eff E A :=
  fun w => (Rejected e, w).

Definition bind {E A B} (c : Eff E A) (k : A -> Eff E B) : Eff E B :=
  fun w =>
    match c w with
    | (Fulfilled a, w') => k a w'
    | (Rejected e, w') => (Rejected e, w')
    end.

(** [try { c } catch (error) { handler }]. *)
Definition try_catch {E A} (c : Eff E A) (handler : E -> Eff E A) : Eff E A :=
  fun w =>
    match c w with
    | (Fulfilled a, w') => (Fulfilled a, w')
    | (Rejected e, w') => handler e w'
    end.

Notation "'let*' x ':=' c 'in' k" := (bind c (fun x => k))
  (at level 10, x name, c at level 100, k at level 200, only parsing).
Notation "c1 ';;;' c2" := (bind c1 (fun _ => c2))
  (at level 100, c2 at level 200, right associativity, only parsing).

Definition emit {E} (e : Event E) : Eff E unit :=
  fun w => (Fulfilled tt, mkWorld (history w ++ [e]) (form w)).

Definition get_form {E} : Eff E FormState :=
  fun w => (Fulfilled (form w), w).

Definition modify_form {E} (g : FormState -> FormState) : Eff E unit :=
  fun w => (Fulfilled tt, mkWorld (history w) (g (form w))).

(** What a computation adds to the history of a world. *)
Definition emitted {E A} (c : Eff E A) (w : World E) : list (Event E) :=
  drop (length (history w)) (history (snd (c w))).

Definition settled {E A} (c : Eff E A) (w : World E) : Settled E A :=
  fst (c w).

Definition form_after {E A} (c : Eff E A) (w : World E) : FormState :=
  form (snd (c w)).

(** ** The component and the update call *)

(** What the rendered form shows, field by field. *)
Record FormView := mkFormView {
  name_error : option string;
  email_error : option string;
  phone_error : option string;
  whatsApp_error : option string;
  button_variant : ButtonVariant
}.

(** The panel: the skeleton (count, width, height) while loading, the
    form afterwards. *)
Record PanelView := mkPanelView {
  skeleton : option (nat * nat * nat);
  form_view : option FormView
}.

Section Workflow.

(** Whatever a promise can be rejected with, and
    [IUpdateShelterResponse], declared outside the component. *)
Context {Err : Type} {IUpdateShelterResponse : Type}.
(** [httpClient.put]: how the [n]-th request of a run, counted from 0,
    to [url] with [body] settles. *)
Variable httpClient_put :
  nat -> string -> IUpdateShelterRequest ->
  Settled Err (AxiosResponse IUpdateShelterResponse).
Variable is_email : jsstring -> bool.

Definition requests_sent (h : list (Event Err)) : nat := count is_put h.

Definition put (url : string) (body : IUpdateShelterRequest)
  : Eff Err (AxiosResponse IUpdateShelterResponse) :=
  fun w =>
    (httpClient_put (requests_sent (history w)) url body,
     mkWorld (history w ++ [HttpPut url body]) (form w)).

Definition console_error (msg : string) (error : Err) : Eff Err unit :=
  emit (ConsoleError msg error).

(** [toast.loading(msg)] makes a toast and returns its id, the toaster's
    running counter. *)
Definition toast_loading (msg : string) : Eff Err ToastId :=
  fun w =>
    let id := S (count is_toast_loading (history w)) in
    (Fulfilled id, mkWorld (history w ++ [ToastLoading id msg]) (form w)).

Definition toast_success (msg : string) (id : ToastId) (closeButton : bool)
  : Eff Err unit :=
  emit (ToastSuccess msg id closeButton).

Definition toast_error (msg : string) (id : ToastId) (closeButton : bool)
  : Eff Err unit :=
  emit (ToastError msg id closeButton).

Definition invalidateQueries (queryKey : list string) : Eff Err unit :=
  emit (InvalidateQueries queryKey).

Definition updateShelter (params : IUpdateShelterRequest)
  : Eff Err IUpdateShelterResponse :=
  try_catch
    (let* response := put "/shelter" params in
     ret (data response))
    (fun error =>
       console_error "Erro ao atualizar abrigo:" error ;;;
       throw error).

(** The object literal [submit] builds for [updateShelter]. *)
Definition request_of (v : ShelterSchema) : IUpdateShelterRequest :=
  {| req_name := name v;
     req_email := email v;
     req_phone := replace_non_digits (phone v);
     req_whatsApp := replace_non_digits (whatsApp v) |}.

Definition submit (v : ShelterSchema) : Eff Err unit :=
  let* toastId := toast_loading "Salvando dados" in
  try_catch
    (updateShelter (request_of v) ;;;
     invalidateQueries ["get-shelter"] ;;;
     toast_success "Dados salvos com sucesso" toastId true)
    (fun error =>
       toast_error "Não foi possível salvar os dados" toastId true).

Definition set_isSubmitting (b : bool) (f : FormState) : FormState :=
  {| values := values f; defaultValues := defaultValues f;
     errors := errors f; isSubmitting := b; isDirty := isDirty f |}.

Definition set_errors (e : FieldErrors) (f : FormState) : FormState :=
  {| values := values f; defaultValues := defaultValues f;
     errors := e; isSubmitting := isSubmitting f; isDirty := isDirty f |}.

(** [handleSubmit(onValid)] of react-hook-form with the zod resolver:
    the resolver runs first; [onValid] is called only when it reports
    no error; what [onValid] throws is thrown again once the form has
    left the submitting state. *)
Definition handleSubmit (onValid : ShelterSchema -> Eff Err unit)
  : Eff Err unit :=
  let* f := get_form in
  modify_form (set_isSubmitting true) ;;;
  let errs := zodResolver is_email (values f) in
  modify_form (set_errors errs) ;;;
  if isEmptyObject errs then
    try_catch
      (onValid (values f) ;;;
       modify_form (set_isSubmitting false))
      (fun error =>
         modify_form (set_isSubmitting false) ;;;
         throw error)
  else
    modify_form (set_isSubmitting false).

(** The form's [onSubmit], [handleSubmit(submit)]. *)
Definition onSubmit : Eff Err unit := handleSubmit submit.

(** The body of the effect that fills the form once the record is
    there. *)
Definition populate (isLoading : bool) (data : option ShelterData)
  : Eff Err unit :=
  match negb isLoading, data with
  | true, Some d =>
      modify_form
        (reset {| name := shelterName d;
                  email := shelterEmail d;
                  phone := shelterPhone d;
                  whatsApp := shelterWhatsApp d |})
  | _, _ => ret tt
  end.

(** What [Shelter] returns. *)
Definition Shelter_render (isLoading : bool) (f : FormState) : PanelView :=
  {| skeleton := if isLoading then Some (4, 320, 32) else None;
     form_view :=
       if negb isLoading then
         Some {| name_error := errors f !! "name";
                 email_error := errors f !! "email";
                 phone_error := errors f !! "phone";
                 whatsApp_error := errors f !! "whatsApp";
                 button_variant :=
                   if negb (isDirty f) || isSubmitting f
                   then Disabled else Default |}
       else None |}.

End Workflow.

(** ** The rules in the words of the validation table

    These definitions follow the table of the form's rules, not the code;
    the theorems below compare them with the schema. *)

(** Number of digit characters of a string. *)
Fixpoint digit_count (v : jsstring) : nat :=
  match v with
  | [] => 0
  | c :: r => (if is_digit c then 1 else 0) + digit_count r
  end.

Definition spec_name_rule (v : ShelterSchema) : bool :=
  (2 <=? length (name v)) && (length (name v) <=? 30).

Definition spec_phone_rule (v : ShelterSchema) : bool :=
  (10 <=? digit_count (phone v)) && (digit_count (phone v) <=? 11).

Definition spec_whatsApp_rule (v : ShelterSchema) : bool :=
  (10 <=? digit_count (whatsApp v)) && (digit_count (whatsApp v) <=? 11).

Definition spec_all_rules (is_email : jsstring -> bool) (v : ShelterSchema)
  : bool :=
  spec_name_rule v && is_email (email v)
  && spec_phone_rule v && spec_whatsApp_rule v.

(** The form values a loaded record gives. *)
Definition values_of (d : ShelterData) : ShelterSchema :=
  {| name := shelterName d; email := shelterEmail d;
     phone := shelterPhone d; whatsApp := shelterWhatsApp d |}.

(** The loaded record with the two numbers reduced to their digits. *)
Definition spec_request_body (d : ShelterData) : IUpdateShelterRequest :=
  {| req_name := shelterName d;
     req_email := shelterEmail d;
     req_phone := replace_non_digits (shelterPhone d);
     req_whatsApp := replace_non_digits (shelterWhatsApp d) |}.

(** The requests of a history, in order. *)
Definition requests {E} (h : list (Event E))
  : list (string * IUpdateShelterRequest) :=
  omap (fun e => match e with
                 | HttpPut url body => Some (url, body)
                 | _ => None
                 end) h.

(** Loading has finished with record [d]; the form is then submitted as
    it stands, through the form's submit handler. *)
Definition load_then_submit {E R}
  (httpClient_put : nat -> string -> IUpdateShelterRequest ->
                    Settled E (AxiosResponse R))
  (is_email : jsstring -> bool) (d : ShelterData) : Eff E unit :=
  populate false (Some d) ;;;
  onSubmit httpClient_put is_email.

(** The round trip as a property of one record in one world: the run
    sends exactly one request, to the shelter path, whose body is the
    record with the two numbers reduced to their digits. *)
Definition round_trip_holds {E R}
  (httpClient_put : nat -> string -> IUpdateShelterRequest ->
                    Settled E (AxiosResponse R))
  (is_email : jsstring -> bool) (d : ShelterData) (w : World E) : Prop :=
  requests (emitted (load_then_submit httpClient_put is_email d) w)
  = [("/shelter", spec_request_body d)].

(** What the form shows once a computation has run, loading being over. *)
Definition shown_after {E A} (c : Eff E A) (w : World E) : option FormView :=
  form_view (Shelter_render false (form_after c w)).

(** ** Sample data *)

Definition sample_record : ShelterData :=
  {| shelterName := js "Abrigo Central";
     shelterEmail := js "contato@abrigo.org";
     shelterPhone := js "11 3333-4444";
     shelterWhatsApp := js "11 99999-8888" |}.

(** A record whose name has one character. *)
Definition short_name_record : ShelterData :=
  {| shelterName := js "A";
     shelterEmail := js "contato@abrigo.org";
     shelterPhone := js "11 3333-4444";
     shelterWhatsApp := js "11 99999-8888" |}.

(** A permissive stand-in for the email pattern: one [@] somewhere. *)
Definition has_at (v : jsstring) : bool :=
  existsb (N.eqb 64) v.

(** A server that echoes the body, and one that rejects every request
    with a status code. *)
Definition echo_server (n : nat) (url : string) (body : IUpdateShelterRequest)
  : Settled nat (AxiosResponse IUpdateShelterRequest) :=
  Fulfilled (mkResponse body 200).

Definition failing_server (n : nat) (url : string)
  (body : IUpdateShelterRequest)
  : Settled nat (AxiosResponse IUpdateShelterRequest) :=
  Rejected 500.

Definition fresh_world : World nat := mkWorld [] useForm_initial.

(** A form without default values into which [v] has been typed. *)
Definition world_with (v : ShelterSchema) : World nat :=
  mkWorld [] {| values := v; defaultValues := None; errors := ∅;
                isSubmitting := false; isDirty := true |}.





(** ** The Select and the props of its caller *)

(** Every prop the caller hands over reaches the native select as it
    was given. *)
Definition props_reach_select (styles : SelectStyles) (p : ISelect)
  (ref : Ref) : Prop :=
  exists sel : Node,
    select_element (FowardedSelect styles p ref) = Some sel
    /\ forall k : string, node_props sel !! k = rest p !! k.

Definition sample_styles : SelectStyles :=
  {| selectGroup := "selectGroup"; selectBase := "selectBase" |}.

(** A caller that brings a class name of its own. *)
Definition styled_select : ISelect :=
  {| label := js "Porte";
     options := [mkOption (js "p") (js "Pequeno");
                 mkOption (js "g") (js "Grande")];
     rest := {["className" := AClass "caller"]} |}.

(** ** Reading keys and refs off a rendered tree *)

Definition node_key (n : Node) : option jsstring :=
  match n with
  | Text _ => None
  | Elem _ k _ _ _ => k
  end.

(** Every element of a tree with the ref it carries, parents first. *)
Fixpoint node_refs (n : Node) : list (string * Ref) :=
  match n with
  | Text _ => []
  | Elem t _ r _ cs => (t, r) :: flat_map node_refs cs
  end.

(** More sample data: a form whose phone is not a number at all. *)
Definition bad_phone_values : ShelterSchema :=
  {| name := js "Abrigo Central";
     email := js "contato@abrigo.org";
     phone := js "ramal 12";
     whatsApp := js "11 99999-8888" |}.

(** * Facts *)

(** ** Digits *)

Lemma replace_non_digits_length (v : jsstring) :
  length (replace_non_digits v) = digit_count v.
Proof.
  induction v as [|c r IH]; simpl; [reflexivity|].
  destruct (is_digit c); simpl; rewrite IH; reflexivity.
Qed.

Lemma replace_non_digits_all_digits (v : jsstring) :
  Forall (fun c => is_digit c = true) (replace_non_digits v).
Proof.
  induction v as [|c r IH]; simpl; [constructor|].
  destruct (is_digit c) eqn:Hc; [constructor; assumption | assumption].
Qed.

Lemma replace_non_digits_sublist (v : jsstring) :
  sublist (replace_non_digits v) v.
Proof.
  induction v as [|c r IH]; simpl; [constructor|].
  destruct (is_digit c); [apply sublist_skip | apply sublist_cons]; exact IH.
Qed.

Lemma replace_non_digits_idempotent (v : jsstring) :
  replace_non_digits (replace_non_digits v) = replace_non_digits v.
Proof.
  induction v as [|c r IH]; simpl; [reflexivity|].
  destruct (is_digit c) eqn:Hc; simpl; [rewrite Hc, IH|]; auto.
Qed.

Lemma digits_in_range_count (v : jsstring) :
  digits_in_range v = (10 <=? digit_count v) && (digit_count v <=? 11).
Proof. unfold digits_in_range. rewrite replace_non_digits_length. reflexivity. Qed.

Lemma digits_in_range_iff (v : jsstring) :
  digits_in_range v = true <-> 10 <= digit_count v <= 11.
Proof.
  rewrite digits_in_range_count, andb_true_iff, !Nat.leb_le. reflexivity.
Qed.

(** ** The resolver *)

Lemma add_issue_keeps (errs : FieldErrors) (i : ZodIssue) (f m : string) :
  errs !! f = Some m -> add_issue errs i !! f = Some m.
Proof.
  intros Hf. unfold add_issue.
  destruct (errs !! path i) eqn:Hp; [exact Hf|].
  rewrite lookup_insert_ne; [exact Hf|].
  intros Heq. rewrite Heq in Hp. congruence.
Qed.

Lemma fold_add_issue_keeps (issues : list ZodIssue) (errs : FieldErrors)
  (f m : string) :
  errs !! f = Some m -> fold_left add_issue issues errs !! f = Some m.
Proof.
  revert errs. induction issues as [|i r IH]; intros errs Hf; simpl.
  - exact Hf.
  - apply IH, add_issue_keeps, Hf.
Qed.

(** The error of a field is the message of the first issue on it. *)
Lemma fold_add_issue_lookup (issues : list ZodIssue) (errs : FieldErrors)
  (f : string) :
  errs !! f = None ->
  fold_left add_issue issues errs !! f
  = message <$> List.find (fun i => bool_decide (path i = f)) issues.
Proof.
  revert errs. induction issues as [|i r IH]; intros errs Hf; simpl.
  - exact Hf.
  - case_bool_decide as Hp.
    + apply fold_add_issue_keeps. unfold add_issue. subst f.
      rewrite Hf. apply lookup_insert_eq.
    + apply IH. unfold add_issue.
      destruct (errs !! path i); [exact Hf|].
      rewrite lookup_insert_ne; [exact Hf | exact Hp].
Qed.

Lemma parseErrorSchema_lookup (issues : list ZodIssue) (f : string) :
  parseErrorSchema issues !! f
  = message <$> List.find (fun i => bool_decide (path i = f)) issues.
Proof. apply fold_add_issue_lookup, lookup_empty. Qed.

Lemma parseErrorSchema_empty (issues : list ZodIssue) :
  parseErrorSchema issues = ∅ <-> issues = [].
Proof.
  split; [|intros ->; reflexivity].
  destruct issues as [|i r]; [reflexivity|]. intros Hempty.
  assert (Hi : parseErrorSchema (i :: r) !! path i = Some (message i)).
  { rewrite parseErrorSchema_lookup. simpl.
    rewrite bool_decide_eq_true_2; reflexivity. }
  rewrite Hempty, lookup_empty in Hi. discriminate.
Qed.

Section ValidationFacts.

Variable is_email : jsstring -> bool.

Lemma zodResolver_name (v : ShelterSchema) :
  zodResolver is_email v !! "name"
  = if length (name v) <? 2
    then Some "Nome deve ter no minínimo 2 caracteres"
    else if 30 <? length (name v)
         then Some "Nome deve ter no máximo 30 caracteres"
         else None.
Proof.
  unfold zodResolver. rewrite parseErrorSchema_lookup.
  unfold shelterSchema, z_min, z_max, z_refine.
  destruct (length (name v) <? 2), (30 <? length (name v)),
    (is_email (email v)), (digits_in_range (phone v)),
    (digits_in_range (whatsApp v)); reflexivity.
Qed.

Lemma zodResolver_email (v : ShelterSchema) :
  zodResolver is_email v !! "email"
  = if is_email (email v) then None else Some "Campo deve ser um email".
Proof.
  unfold zodResolver. rewrite parseErrorSchema_lookup.
  unfold shelterSchema, z_min, z_max, z_refine.
  destruct (length (name v) <? 2), (30 <? length (name v)),
    (is_email (email v)), (digits_in_range (phone v)),
    (digits_in_range (whatsApp v)); reflexivity.
Qed.

Lemma zodResolver_phone (v : ShelterSchema) :
  zodResolver is_email v !! "phone"
  = if digits_in_range (phone v) then None
    else Some "Número deve ter entre 10 e 11 caracteres".
Proof.
  unfold zodResolver. rewrite parseErrorSchema_lookup.
  unfold shelterSchema, z_min, z_max, z_refine.
  destruct (length (name v) <? 2), (30 <? length (name v)),
    (is_email (email v)), (digits_in_range (phone v)),
    (digits_in_range (whatsApp v)); reflexivity.
Qed.

Lemma zodResolver_whatsApp (v : ShelterSchema) :
  zodResolver is_email v !! "whatsApp"
  = if digits_in_range (whatsApp v) then None
    else Some "Número deve ter entre 10 e 11 caracteres".
Proof.
  unfold zodResolver. rewrite parseErrorSchema_lookup.
  unfold shelterSchema, z_min, z_max, z_refine.
  destruct (length (name v) <? 2), (30 <? length (name v)),
    (is_email (email v)), (digits_in_range (phone v)),
    (digits_in_range (whatsApp v)); reflexivity.
Qed.

(** The resolver reports no error exactly when the four rules of the
    table hold. *)
Lemma isEmptyObject_zodResolver (v : ShelterSchema) :
  isEmptyObject (zodResolver is_email v) = spec_all_rules is_email v.
Proof.
  unfold isEmptyObject, zodResolver.
  rewrite (bool_decide_ext _ _ (parseErrorSchema_empty _)).
  unfold spec_all_rules, spec_name_rule, spec_phone_rule, spec_whatsApp_rule.
  rewrite <- !digits_in_range_count.
  unfold shelterSchema, z_min, z_max, z_refine.
  destruct (length (name v) <? 2) eqn:Hmin,
    (30 <? length (name v)) eqn:Hmax,
    (is_email (email v)), (digits_in_range (phone v)),
    (digits_in_range (whatsApp v));
    apply Nat.ltb_lt in Hmin || apply Nat.ltb_ge in Hmin;
    apply Nat.ltb_lt in Hmax || apply Nat.ltb_ge in Hmax;
    try lia;
    repeat match goal with
           | |- context [?a <=? ?b] =>
               let H := fresh in
               destruct (Nat.leb_spec a b) as [H|H]; try lia
           end;
    reflexivity.
Qed.

End ValidationFacts.

(** ** Running the computations *)

Lemma count_app {E} (kind : Event E -> bool) (h k : list (Event E)) :
  count kind (h ++ k) = count kind h + count kind k.
Proof. unfold count. rewrite List.filter_app, length_app. reflexivity. Qed.

(** A computation that ends in a world extending the history by [evs]
    has emitted [evs]. *)
Lemma emitted_of_run {E A} (c : Eff E A) (w : World E) (o : Settled E A)
  (evs : list (Event E)) (f : FormState) :
  c w = (o, mkWorld (history w ++ evs) f) ->
  emitted c w = evs /\ settled c w = o /\ form_after c w = f.
Proof.
  intros Hrun. unfold emitted, settled, form_after. rewrite Hrun. simpl.
  rewrite drop_app_length. auto.
Qed.

(** A computation that leaves the history alone has emitted nothing. *)
Lemma emitted_of_silent_run {E A} (c : Eff E A) (w : World E)
  (o : Settled E A) (f : FormState) :
  c w = (o, mkWorld (history w) f) ->
  emitted c w = [] /\ settled c w = o /\ form_after c w = f.
Proof.
  intros Hrun. apply emitted_of_run. rewrite app_nil_r. exact Hrun.
Qed.

Section WorkflowFacts.

Context {Err : Type} {IUpdateShelterResponse : Type}.
Variable httpClient_put :
  nat -> string -> IUpdateShelterRequest ->
  Settled Err (AxiosResponse IUpdateShelterResponse).
Variable is_email : jsstring -> bool.

Lemma updateShelter_run (params : IUpdateShelterRequest) (w : World Err) :
  updateShelter httpClient_put params w
  = match httpClient_put (requests_sent (history w)) "/shelter" params with
    | Fulfilled r =>
        (Fulfilled (data r),
         mkWorld (history w ++ [HttpPut "/shelter" params]) (form w))
    | Rejected e =>
        (Rejected e,
         mkWorld (history w ++ [HttpPut "/shelter" params;
                                ConsoleError "Erro ao atualizar abrigo:" e])
                 (form w))
    end.
Proof.
  unfold updateShelter, try_catch, bind, put, console_error, emit, throw, ret.
  destruct (httpClient_put _ _ _); simpl; [reflexivity|].
  rewrite <- app_assoc. reflexivity.
Qed.

Lemma submit_run (v : ShelterSchema) (w : World Err) :
  submit httpClient_put v w
  = let id := S (count is_toast_loading (history w)) in
    match httpClient_put (requests_sent (history w)) "/shelter"
            (request_of v) with
    | Fulfilled r =>
        (Fulfilled tt,
         mkWorld (history w ++
                    [ToastLoading id "Salvando dados";
                     HttpPut "/shelter" (request_of v);
                     InvalidateQueries ["get-shelter"];
                     ToastSuccess "Dados salvos com sucesso" id true])
                 (form w))
    | Rejected e =>
        (Fulfilled tt,
         mkWorld (history w ++
                    [ToastLoading id "Salvando dados";
                     HttpPut "/shelter" (request_of v);
                     ConsoleError "Erro ao atualizar abrigo:" e;
                     ToastError "Não foi possível salvar os dados" id true])
                 (form w))
    end.
Proof.
  unfold submit, bind at 1. unfold toast_loading at 1. cbv zeta.
  unfold try_catch, bind. rewrite updateShelter_run. simpl history.
  unfold requests_sent. rewrite count_app. simpl (count is_put [_]).
  rewrite Nat.add_0_r.
  destruct (httpClient_put _ _ _); simpl;
    unfold invalidateQueries, toast_success, toast_error, emit; simpl;
    rewrite <- !app_assoc; reflexivity.
Qed.

(** A form that fails a rule: the handler stores the errors and calls
    nothing. *)
Lemma onSubmit_invalid (w : World Err) :
  spec_all_rules is_email (values (form w)) = false ->
  onSubmit httpClient_put is_email w
  = (Fulfilled tt,
     mkWorld (history w)
       {| values := values (form w);
          defaultValues := defaultValues (form w);
          errors := zodResolver is_email (values (form w));
          isSubmitting := false;
          isDirty := isDirty (form w) |}).
Proof.
  intros Hrules. unfold onSubmit, handleSubmit, bind, get_form, modify_form.
  simpl. rewrite isEmptyObject_zodResolver, Hrules. reflexivity.
Qed.

(** A form that passes: the handler runs [submit] on the values and
    leaves the submitting state. *)
Lemma onSubmit_valid (w : World Err) :
  spec_all_rules is_email (values (form w)) = true ->
  onSubmit httpClient_put is_email w
  = (Fulfilled tt,
     mkWorld
       (history (snd (submit httpClient_put (values (form w)) w)))
       {| values := values (form w);
          defaultValues := defaultValues (form w);
          errors := ∅;
          isSubmitting := false;
          isDirty := isDirty (form w) |}).
Proof.
  intros Hrules.
  assert (Hempty : zodResolver is_email (values (form w)) = ∅).
  { pose proof (isEmptyObject_zodResolver is_email (values (form w))) as H.
    rewrite Hrules in H. unfold isEmptyObject in H.
    apply bool_decide_eq_true_1 in H. exact H. }
  unfold onSubmit, handleSubmit, bind, get_form, modify_form, try_catch.
  simpl. rewrite isEmptyObject_zodResolver, Hrules, Hempty.
  rewrite !submit_run. cbv zeta.
  destruct (httpClient_put _ _ _); reflexivity.
Qed.

(** ** The update call *)

(** C3: whatever request is given, [updateShelter] issues one PUT to
    the shelter path with the request as its body.  When the client
    fulfils it, the call returns the data of the response and nothing
    is logged; when the client rejects it with any error, the error is
    logged once on the console and the same error is thrown to the
    caller.  In both cases exactly one request is made: there is no
    second attempt, and the form is not touched. *)
Theorem updateShelter_contract (params : IUpdateShelterRequest)
  (w : World Err) :
  match httpClient_put (requests_sent (history w)) "/shelter" params with
  | Fulfilled r =>
      settled (updateShelter httpClient_put params) w = Fulfilled (data r)
      /\ emitted (updateShelter httpClient_put params) w
         = [HttpPut "/shelter" params]
  | Rejected e =>
      settled (updateShelter httpClient_put params) w = Rejected e
      /\ emitted (updateShelter httpClient_put params) w
         = [HttpPut "/shelter" params;
            ConsoleError "Erro ao atualizar abrigo:" e]
  end
  /\ requests (emitted (updateShelter httpClient_put params) w)
     = [("/shelter", params)]
  /\ form_after (updateShelter httpClient_put params) w = form w.
Proof.
  pose proof (updateShelter_run params w) as Hrun.
  destruct (httpClient_put _ _ _) as [r|e];
    apply emitted_of_run in Hrun as (Hev & Hset & Hform);
    rewrite Hev, Hset, Hform; repeat split; reflexivity.
Qed.

(** ** The submit handler *)

(** C4: when the form passes validation and the update request is
    fulfilled, submitting emits, in this order, the loading toast, the
    PUT, the invalidation of the query key [get-shelter] and the
    success toast on the id of the loading toast; so the key is
    invalidated once, one success notification is shown and no error
    notification. *)
Theorem submit_success (w : World Err)
  (r : AxiosResponse IUpdateShelterResponse) :
  spec_all_rules is_email (values (form w)) = true ->
  httpClient_put (requests_sent (history w)) "/shelter"
    (request_of (values (form w))) = Fulfilled r ->
  emitted (onSubmit httpClient_put is_email) w
  = [ToastLoading (S (count is_toast_loading (history w))) "Salvando dados";
     HttpPut "/shelter" (request_of (values (form w)));
     InvalidateQueries ["get-shelter"];
     ToastSuccess "Dados salvos com sucesso"
       (S (count is_toast_loading (history w))) true]
  /\ count (is_invalidate ["get-shelter"])
       (emitted (onSubmit httpClient_put is_email) w) = 1
  /\ count is_toast_success
       (emitted (onSubmit httpClient_put is_email) w) = 1
  /\ count is_toast_error
       (emitted (onSubmit httpClient_put is_email) w) = 0.
Proof.
  intros Hrules Hput.
  pose proof (onSubmit_valid w Hrules) as Hrun.
  rewrite submit_run in Hrun. cbv zeta in Hrun. rewrite Hput in Hrun.
  simpl in Hrun. apply emitted_of_run in Hrun as (Hev & _ & _).
  rewrite Hev. repeat split; reflexivity.
Qed.

(** C5: when the form passes validation and the update request is
    rejected, submitting emits the loading toast, the PUT, the console
    log of the error and one error toast on the id of the loading
    toast; no query is invalidated, no success notification is shown,
    the error does not leave the handler, and the values and default
    values of the form are what they were. *)
Theorem submit_failure (w : World Err) (e : Err) :
  spec_all_rules is_email (values (form w)) = true ->
  httpClient_put (requests_sent (history w)) "/shelter"
    (request_of (values (form w))) = Rejected e ->
  emitted (onSubmit httpClient_put is_email) w
  = [ToastLoading (S (count is_toast_loading (history w))) "Salvando dados";
     HttpPut "/shelter" (request_of (values (form w)));
     ConsoleError "Erro ao atualizar abrigo:" e;
     ToastError "Não foi possível salvar os dados"
       (S (count is_toast_loading (history w))) true]
  /\ count is_toast_error
       (emitted (onSubmit httpClient_put is_email) w) = 1
  /\ count is_toast_success
       (emitted (onSubmit httpClient_put is_email) w) = 0
  /\ count is_any_invalidate
       (emitted (onSubmit httpClient_put is_email) w) = 0
  /\ settled (onSubmit httpClient_put is_email) w = Fulfilled tt
  /\ values (form_after (onSubmit httpClient_put is_email) w)
     = values (form w)
  /\ defaultValues (form_after (onSubmit httpClient_put is_email) w)
     = defaultValues (form w).
Proof.
  intros Hrules Hput.
  pose proof (onSubmit_valid w Hrules) as Hrun.
  rewrite submit_run in Hrun. cbv zeta in Hrun. rewrite Hput in Hrun.
  simpl in Hrun. apply emitted_of_run in Hrun as (Hev & Hset & Hform).
  rewrite Hev, Hset, Hform. repeat split; reflexivity.
Qed.

(** ** Validation in front of the handler *)

(** What the form shows after a submission that failed a rule. *)
Lemma shown_after_invalid (w : World Err) :
  spec_all_rules is_email (values (form w)) = false ->
  shown_after (onSubmit httpClient_put is_email) w
  = Some {| name_error := zodResolver is_email (values (form w)) !! "name";
            email_error := zodResolver is_email (values (form w)) !! "email";
            phone_error := zodResolver is_email (values (form w)) !! "phone";
            whatsApp_error :=
              zodResolver is_email (values (form w)) !! "whatsApp";
            button_variant :=
              if isDirty (form w) then Default else Disabled |}.
Proof.
  intros Hrules. unfold shown_after, form_after.
  rewrite (onSubmit_invalid w Hrules). unfold Shelter_render. simpl.
  rewrite orb_false_r. destruct (isDirty (form w)); reflexivity.
Qed.

(** C7: when the name held by the form has fewer than 2 or more than 30
    code units, submitting emits nothing, so the update call is not
    made, and the form then shows the message of the violated bound
    under the name field; a name of 2 to 30 code units gets no name
    error from the resolver. *)
Theorem name_length_rule (w : World Err) :
  (length (name (values (form w))) < 2
   \/ 30 < length (name (values (form w))) ->
   emitted (onSubmit httpClient_put is_email) w = []
   /\ name_error <$> shown_after (onSubmit httpClient_put is_email) w
      = Some (Some (if length (name (values (form w))) <? 2
                    then "Nome deve ter no minínimo 2 caracteres"
                    else "Nome deve ter no máximo 30 caracteres")))
  /\ (2 <= length (name (values (form w))) <= 30 ->
      zodResolver is_email (values (form w)) !! "name" = None).
Proof.
  split.
  - intros Hlen.
    assert (Hrules : spec_all_rules is_email (values (form w)) = false).
    { unfold spec_all_rules, spec_name_rule.
      destruct (Nat.leb_spec 2 (length (name (values (form w)))));
        destruct (Nat.leb_spec (length (name (values (form w)))) 30);
        simpl; try reflexivity; lia. }
    split.
    + pose proof (onSubmit_invalid w Hrules) as Hrun.
      apply emitted_of_silent_run in Hrun as (Hev & _ & _). exact Hev.
    + rewrite (shown_after_invalid w Hrules). simpl.
      rewrite zodResolver_name.
      destruct (Nat.ltb_spec (length (name (values (form w)))) 2);
        [reflexivity|].
      destruct (Nat.ltb_spec 30 (length (name (values (form w)))));
        [reflexivity | lia].
  - intros Hlen. rewrite zodResolver_name.
    destruct (Nat.ltb_spec (length (name (values (form w)))) 2); [lia|].
    destruct (Nat.ltb_spec 30 (length (name (values (form w))))); [lia|].
    reflexivity.
Qed.

(** C8: when the values of the form violate at least one of the four
    rules, submitting ends normally without emitting anything, so no
    request is made and no toast is shown; every field with a violated
    rule, and no other, then carries a message in the form. *)
Theorem invalid_form_stays_local (w : World Err) :
  spec_all_rules is_email (values (form w)) = false ->
  emitted (onSubmit httpClient_put is_email) w = []
  /\ settled (onSubmit httpClient_put is_email) w = Fulfilled tt
  /\ exists fv : FormView,
      shown_after (onSubmit httpClient_put is_email) w = Some fv
      /\ (is_Some (name_error fv)
          <-> spec_name_rule (values (form w)) = false)
      /\ (is_Some (email_error fv)
          <-> is_email (email (values (form w))) = false)
      /\ (is_Some (phone_error fv)
          <-> spec_phone_rule (values (form w)) = false)
      /\ (is_Some (whatsApp_error fv)
          <-> spec_whatsApp_rule (values (form w)) = false).
Proof.
  intros Hrules.
  pose proof (onSubmit_invalid w Hrules) as Hrun.
  apply emitted_of_silent_run in Hrun as (Hev & Hset & _).
  split; [exact Hev|]. split; [exact Hset|].
  eexists. split; [apply (shown_after_invalid w Hrules)|]. simpl.
  rewrite zodResolver_name, zodResolver_email, zodResolver_phone,
    zodResolver_whatsApp.
  unfold spec_name_rule, spec_phone_rule, spec_whatsApp_rule.
  rewrite <- !digits_in_range_count.
  repeat split;
    repeat match goal with
           | |- context [?a <? ?b] => destruct (Nat.ltb_spec a b)
           | |- context [?a <=? ?b] => destruct (Nat.leb_spec a b)
           | |- context [if ?c then _ else _] => destruct c
           end;
    simpl;
    let Hx := fresh "Hx" in
    intros Hx;
    first [ lia | discriminate | reflexivity
          | eexists; reflexivity
          | destruct Hx; discriminate ].
Qed.

(** ** Loading *)

Lemma populate_run (d : ShelterData) (w : World Err) :
  populate false (Some d) w
  = (Fulfilled tt, mkWorld (history w) (reset (values_of d) (form w))).
Proof. reflexivity. Qed.

Lemma reset_not_dirty (v : ShelterSchema) (f : FormState) :
  isDirty (reset v f) = false.
Proof. reflexivity. Qed.

(** A form just filled from a record shows the Disabled button. *)
Lemma loaded_form_button (d : ShelterData) (w : World Err) :
  button_variant
    <$> form_view (Shelter_render false
                     (form_after (populate false (Some d)) w))
  = Some Disabled.
Proof.
  unfold form_after. rewrite populate_run. simpl form.
  unfold Shelter_render. simpl. reflexivity.
Qed.

(** C10: the effect writes the record into the form when loading is
    over and the record is there, field by field: [shelterName] to
    [name], [shelterEmail] to [email], [shelterPhone] to [phone],
    [shelterWhatsApp] to [whatsApp]; while loading, or without a
    record, it changes nothing, so a form that was never filled still
    holds the empty default values. *)
Theorem populate_when_loaded (isLoading : bool) (data : option ShelterData)
  (w : World Err) :
  (forall d : ShelterData,
      isLoading = false -> data = Some d ->
      values (form_after (populate isLoading data) w)
      = {| name := shelterName d; email := shelterEmail d;
           phone := shelterPhone d; whatsApp := shelterWhatsApp d |})
  /\ (isLoading = true \/ data = None ->
      populate isLoading data w = (Fulfilled tt, w))
  /\ (isLoading = false -> data = None -> form w = useForm_initial ->
      values (form_after (populate isLoading data) w) = empty_values).
Proof.
  split; [|split].
  - intros d -> ->. reflexivity.
  - intros [-> | ->]; [|destruct isLoading]; reflexivity.
  - intros -> -> Hinit. unfold form_after. simpl. rewrite Hinit. reflexivity.
Qed.

(** ** The submit control *)


(** ** Round trip *)

(** C1, amended: for a loaded record whose fields pass the four rules,
    submitting the form as loaded sends exactly one request, to the
    shelter path, whose body has the name and email of the record
    unchanged and its phone and whatsApp reduced to their digits. *)
Theorem load_then_submit_request (d : ShelterData) (w : World Err) :
  spec_all_rules is_email (values_of d) = true ->
  round_trip_holds httpClient_put is_email d w.
Proof.
  intros Hrules. unfold round_trip_holds, load_then_submit, emitted.
  unfold bind at 1. rewrite populate_run.
  set (w1 := mkWorld (history w) (reset (values_of d) (form w))).
  assert (Hv : values (form w1) = values_of d) by reflexivity.
  assert (Hrules1 : spec_all_rules is_email (values (form w1)) = true)
    by (rewrite Hv; exact Hrules).
  rewrite (onSubmit_valid w1 Hrules1), submit_run, Hv. cbv zeta.
  destruct (httpClient_put _ _ _); simpl; rewrite drop_app_length;
    reflexivity.
Qed.

End WorkflowFacts.

(** ** Phone and whatsApp *)

(** C2: the phone field gets no error exactly when the number of digits
    in it is 10 or 11, and so does the whatsApp field; two forms whose
    phone (or whatsApp) fields hold the same number of digits agree on
    the validity of that field, whatever else the fields and the other
    values hold. *)
Theorem phone_validity_by_digit_count (is_email : jsstring -> bool)
  (v v' : ShelterSchema) :
  (zodResolver is_email v !! "phone" = None
   <-> 10 <= digit_count (phone v) <= 11)
  /\ (zodResolver is_email v !! "whatsApp" = None
      <-> 10 <= digit_count (whatsApp v) <= 11)
  /\ (digit_count (phone v) = digit_count (phone v') ->
      (zodResolver is_email v !! "phone" = None
       <-> zodResolver is_email v' !! "phone" = None))
  /\ (digit_count (whatsApp v) = digit_count (whatsApp v') ->
      (zodResolver is_email v !! "whatsApp" = None
       <-> zodResolver is_email v' !! "whatsApp" = None)).
Proof.
  assert (Hphone : forall u, zodResolver is_email u !! "phone" = None
                             <-> 10 <= digit_count (phone u) <= 11).
  { intros u. rewrite zodResolver_phone, <- digits_in_range_iff.
    destruct (digits_in_range (phone u)); split; congruence. }
  assert (Hwhats : forall u, zodResolver is_email u !! "whatsApp" = None
                             <-> 10 <= digit_count (whatsApp u) <= 11).
  { intros u. rewrite zodResolver_whatsApp, <- digits_in_range_iff.
    destruct (digits_in_range (whatsApp u)); split; congruence. }
  split; [apply Hphone|]. split; [apply Hwhats|]. split.
  - intros Hsame. rewrite !Hphone, Hsame. reflexivity.
  - intros Hsame. rewrite !Hwhats, Hsame. reflexivity.
Qed.

(** The two sample numbers: ten digits pass, nine do not. *)
Example ten_digits_valid : digits_in_range (js "99 9999-9999") = true.
Proof. reflexivity. Qed.

Example nine_digits_invalid : digits_in_range (js "99 999-999") = false.
Proof. reflexivity. Qed.

(** ** The Select primitive *)

(** C9, amended: the rendered Select is a [div] holding a [label] with
    the label text and a [select]; the [select] has one [option] child
    per entry of the list, in the order of the list, the [i]-th child
    having the value of the [i]-th entry as its [value] (and key) and
    the text of the entry as its only content; label, values and texts
    appear as given.  Of the other props of the caller, [className] is
    replaced by the class of the style sheet and [children] by the
    options; every other prop reaches the [select] unchanged. *)
Theorem select_renders_options (styles : SelectStyles) (p : ISelect)
  (ref : Ref) :
  exists sel : Node,
    node_children (FowardedSelect styles p ref)
    = [Elem "label" None None ∅ [Text (label p)]; sel]
    /\ node_tag sel = Some "select"
    /\ length (node_children sel) = length (options p)
    /\ (forall i : nat,
          node_children sel !! i
          = (fun o => Elem "option" (Some (value o)) None
                        {["value" := AString (value o)]} [Text (text o)])
            <$> options p !! i)
    /\ (forall k : string,
          node_props sel !! k
          = if bool_decide (k = "className")
            then Some (AClass (selectBase styles))
            else if bool_decide (k = "children")
                 then None
                 else rest p !! k).
Proof.
  eexists. split; [reflexivity|]. simpl.
  split; [reflexivity|]. split; [apply length_map|]. split.
  - intros i. rewrite list_lookup_fmap. reflexivity.
  - intros k. case_bool_decide as Hk.
    + subst k. apply lookup_insert_eq.
    + rewrite lookup_insert_ne by congruence.
      case_bool_decide as Hc.
      * subst k. apply lookup_delete_eq.
      * apply lookup_delete_ne. congruence.
Qed.

(** ** The theorems at sample data *)

Lemma load_then_submit_request_sample :
  spec_all_rules has_at (values_of sample_record) = true
  /\ round_trip_holds echo_server has_at sample_record fresh_world.
Proof.
  split; [reflexivity|].
  apply (load_then_submit_request echo_server has_at sample_record fresh_world).
  reflexivity.
Defined.

(** C1 as stated fails on a record that breaks a rule: with a name of one
    character the loaded form does not pass the resolver and no request
    is sent at all. *)
Lemma load_then_submit_short_name :
  requests (emitted (load_then_submit echo_server has_at short_name_record)
              fresh_world) = []
  /\ ~ round_trip_holds echo_server has_at short_name_record fresh_world.
Proof.
  split; [reflexivity|].
  unfold round_trip_holds. vm_compute. discriminate.
Qed.

Lemma phone_validity_by_digit_count_sample :
  digit_count (js "99 9999-9999") = digit_count (js "(99) 9999.9999")
  /\ (zodResolver has_at (values_of sample_record) !! "phone" = None
      <-> zodResolver has_at
            {| name := []; email := []; phone := js "(11) 3333.4444";
               whatsApp := [] |} !! "phone" = None).
Proof.
  split; [reflexivity|].
  apply (phone_validity_by_digit_count has_at (values_of sample_record)
           {| name := []; email := []; phone := js "(11) 3333.4444";
              whatsApp := [] |}).
  reflexivity.
Defined.

Lemma submit_success_sample :
  count (is_invalidate ["get-shelter"])
    (emitted (onSubmit echo_server has_at)
       (world_with (values_of sample_record))) = 1
  /\ count is_toast_success
       (emitted (onSubmit echo_server has_at)
          (world_with (values_of sample_record))) = 1.
Proof.
  destruct (submit_success echo_server has_at
              (world_with (values_of sample_record))
              (mkResponse (request_of (values_of sample_record)) 200)
              eq_refl eq_refl) as (_ & Hinv & Hok & _).
  split; [exact Hinv | exact Hok].
Defined.

Lemma submit_failure_sample :
  count is_toast_error
    (emitted (onSubmit failing_server has_at)
       (world_with (values_of sample_record))) = 1
  /\ values (form_after (onSubmit failing_server has_at)
               (world_with (values_of sample_record)))
     = values_of sample_record.
Proof.
  destruct (submit_failure failing_server has_at
              (world_with (values_of sample_record)) 500
              eq_refl eq_refl) as (_ & Herr & _ & _ & _ & Hval & _).
  split; [exact Herr | exact Hval].
Defined.



(** C9 as stated fails on a caller that brings a class name: the select
    carries the class of the style sheet, not the caller's. *)
Lemma select_overrides_className :
  node_props <$> select_element (FowardedSelect sample_styles styled_select None)
  = Some {["className" := AClass "selectBase"]}
  /\ ~ props_reach_select sample_styles styled_select None.
Proof.
  split; [reflexivity|].
  intros (sel & Hsel & Hprops).
  injection Hsel as <-. specialize (Hprops "className").
  vm_compute in Hprops. discriminate.
Qed.

Lemma name_length_rule_sample :
  emitted (onSubmit echo_server has_at)
    (world_with (values_of short_name_record)) = []
  /\ zodResolver has_at (values_of sample_record) !! "name" = None.
Proof.
  split.
  - apply (proj1 (name_length_rule echo_server has_at
                    (world_with (values_of short_name_record)))).
    left. simpl. lia.
  - apply (proj2 (name_length_rule echo_server has_at
                    (world_with (values_of sample_record)))).
    simpl. lia.
Defined.

Lemma invalid_form_stays_local_sample :
  spec_all_rules has_at (values_of short_name_record) = false
  /\ emitted (onSubmit echo_server has_at)
       (world_with (values_of short_name_record)) = [].
Proof.
  split; [reflexivity|].
  apply (invalid_form_stays_local echo_server has_at
           (world_with (values_of short_name_record))).
  reflexivity.
Defined.

Lemma populate_when_loaded_sample :
  values (form_after (populate false (Some sample_record)) fresh_world)
  = values_of sample_record
  /\ populate true (Some sample_record) fresh_world
     = (Fulfilled tt, fresh_world)
  /\ values (form_after (populate false None) fresh_world) = empty_values.
Proof.
  destruct (populate_when_loaded false (Some sample_record) fresh_world)
    as (Hload & _ & _).
  destruct (populate_when_loaded true (Some sample_record) fresh_world)
    as (_ & Hskip & _).
  destruct (populate_when_loaded false None fresh_world)
    as (_ & _ & Hnone).
  split; [apply (Hload sample_record eq_refl eq_refl)|].
  split; [apply Hskip; left; reflexivity|].
  apply Hnone; reflexivity.
Defined.

(** * Further properties *)

(** ** What the handler emits *)

Section WorkflowProperties.

Context {Err : Type} {IUpdateShelterResponse : Type}.
Variable httpClient_put :
  nat -> string -> IUpdateShelterRequest ->
  Settled Err (AxiosResponse IUpdateShelterResponse).
Variable is_email : jsstring -> bool.

Lemma submit_emitted (v : ShelterSchema) (w : World Err) :
  emitted (submit httpClient_put v) w
  = ToastLoading (S (count is_toast_loading (history w))) "Salvando dados"
    :: HttpPut "/shelter" (request_of v)
    :: match httpClient_put (requests_sent (history w)) "/shelter"
               (request_of v) with
       | Fulfilled _ =>
           [InvalidateQueries ["get-shelter"];
            ToastSuccess "Dados salvos com sucesso"
              (S (count is_toast_loading (history w))) true]
       | Rejected e =>
           [ConsoleError "Erro ao atualizar abrigo:" e;
            ToastError "Não foi possível salvar os dados"
              (S (count is_toast_loading (history w))) true]
       end.
Proof.
  pose proof (submit_run httpClient_put v w) as Hrun. cbv zeta in Hrun.
  destruct (httpClient_put _ _ _);
    apply emitted_of_run in Hrun as (Hev & _ & _); exact Hev.
Qed.

Lemma onSubmit_emitted (w : World Err) :
  emitted (onSubmit httpClient_put is_email) w
  = if spec_all_rules is_email (values (form w))
    then emitted (submit httpClient_put (values (form w))) w
    else [].
Proof.
  destruct (spec_all_rules is_email (values (form w))) eqn:Hrules.
  - unfold emitted at 1. rewrite (onSubmit_valid _ _ w Hrules). reflexivity.
  - pose proof (onSubmit_invalid httpClient_put is_email w Hrules) as Hrun.
    apply emitted_of_silent_run in Hrun as (Hev & _ & _). exact Hev.
Qed.

(** X1: [submit] never rejects and never touches the form, whatever the
    values and however the server answers; the form's submit handler
    never rejects either. *)
Theorem submit_never_throws (v : ShelterSchema) (w : World Err) :
  settled (submit httpClient_put v) w = Fulfilled tt
  /\ form_after (submit httpClient_put v) w = form w
  /\ settled (onSubmit httpClient_put is_email) w = Fulfilled tt.
Proof.
  pose proof (submit_run httpClient_put v w) as Hrun. cbv zeta in Hrun.
  split; [|split].
  - destruct (httpClient_put _ _ _);
      apply emitted_of_run in Hrun as (_ & Hs & _); exact Hs.
  - destruct (httpClient_put _ _ _);
      apply emitted_of_run in Hrun as (_ & _ & Hf); exact Hf.
  - unfold settled.
    destruct (spec_all_rules is_email (values (form w))) eqn:Hrules.
    + rewrite (onSubmit_valid _ _ w Hrules). reflexivity.
    + rewrite (onSubmit_invalid _ _ w Hrules). reflexivity.
Qed.

(** X2: every run of [submit] starts with one loading toast, makes one
    request, and ends with one closing toast, success or error, on the id
    of the loading toast and with a close button; the query cache is
    invalidated exactly in the runs that end with the success toast, and
    the console gets the error exactly in those that end with the error
    toast. *)
Theorem submit_toast_pairing (v : ShelterSchema) (w : World Err) :
  count is_toast_loading (emitted (submit httpClient_put v) w) = 1
  /\ count is_put (emitted (submit httpClient_put v) w) = 1
  /\ count is_toast_success (emitted (submit httpClient_put v) w)
     + count is_toast_error (emitted (submit httpClient_put v) w) = 1
  /\ count is_any_invalidate (emitted (submit httpClient_put v) w)
     = count is_toast_success (emitted (submit httpClient_put v) w)
  /\ count is_console_error (emitted (submit httpClient_put v) w)
     = count is_toast_error (emitted (submit httpClient_put v) w)
  /\ exists id : ToastId,
      head (emitted (submit httpClient_put v) w)
      = Some (ToastLoading id "Salvando dados")
      /\ (last (emitted (submit httpClient_put v) w)
          = Some (ToastSuccess "Dados salvos com sucesso" id true)
          \/ last (emitted (submit httpClient_put v) w)
             = Some (ToastError "Não foi possível salvar os dados" id true)).
Proof.
  rewrite submit_emitted.
  destruct (httpClient_put _ _ _); repeat split;
    eexists; (split; [reflexivity|]); [left | right]; reflexivity.
Qed.

(** X3: the form's submit handler sends one request, to the shelter path
    and with the body built from the values of the form, when the values
    pass the four rules, and none otherwise; how the server answers does
    not matter. *)
Theorem onSubmit_requests (w : World Err) :
  requests (emitted (onSubmit httpClient_put is_email) w)
  = if spec_all_rules is_email (values (form w))
    then [("/shelter", request_of (values (form w)))]
    else [].
Proof.
  rewrite onSubmit_emitted.
  destruct (spec_all_rules is_email (values (form w))); [|reflexivity].
  rewrite submit_emitted. destruct (httpClient_put _ _ _); reflexivity.
Qed.

(** X4: whatever the form's submit handler sends goes to the shelter
    path and is well formed: a name of 2 to 30 code units, an email the
    email check accepts, and a phone and a whatsApp number of 10 or 11
    code units that are all digits. *)
Theorem sent_body_well_formed (w : World Err) (url : string)
  (body : IUpdateShelterRequest) :
  In (url, body) (requests (emitted (onSubmit httpClient_put is_email) w)) ->
  url = "/shelter"
  /\ 2 <= length (req_name body) <= 30
  /\ is_email (req_email body) = true
  /\ Forall (fun c => is_digit c = true) (req_phone body)
  /\ 10 <= length (req_phone body) <= 11
  /\ Forall (fun c => is_digit c = true) (req_whatsApp body)
  /\ 10 <= length (req_whatsApp body) <= 11.
Proof.
  rewrite onSubmit_emitted.
  destruct (spec_all_rules is_email (values (form w))) eqn:Hrules;
    [|intros []].
  rewrite submit_emitted.
  intros Hin.
  assert (Heq : (url, body) = ("/shelter", request_of (values (form w)))).
  { destruct (httpClient_put _ _ _); simpl in Hin;
      destruct Hin as [Hin | []]; symmetry; exact Hin. }
  injection Heq as -> ->.
  unfold spec_all_rules, spec_name_rule, spec_phone_rule, spec_whatsApp_rule
    in Hrules.
  rewrite !andb_true_iff, !Nat.leb_le in Hrules.
  destruct Hrules as [[[[Hn1 Hn2] He] [Hp1 Hp2]] [Hw1 Hw2]].
  unfold request_of. simpl.
  rewrite !replace_non_digits_length.
  repeat split; try assumption; apply replace_non_digits_all_digits.
Qed.

(** X6: after the form's submit handler has run, in every case, the form
    is no longer submitting, its values and default values are what they
    were, and its errors are exactly those of the resolver on the values:
    none when the values pass, so messages of an earlier attempt are
    gone.  In particular the handler leaves the dirty flag as it was,
    also after a successful save. *)
Theorem onSubmit_form_state (w : World Err) :
  form_after (onSubmit httpClient_put is_email) w
  = {| values := values (form w);
       defaultValues := defaultValues (form w);
       errors := zodResolver is_email (values (form w));
       isSubmitting := false;
       isDirty := isDirty (form w) |}
  /\ (spec_all_rules is_email (values (form w)) = true ->
      errors (form_after (onSubmit httpClient_put is_email) w) = ∅)
  /\ isDirty (form_after (onSubmit httpClient_put is_email) w)
     = isDirty (form w).
Proof.
  assert (Hform : form_after (onSubmit httpClient_put is_email) w
                  = {| values := values (form w);
                       defaultValues := defaultValues (form w);
                       errors := zodResolver is_email (values (form w));
                       isSubmitting := false;
                       isDirty := isDirty (form w) |}).
  { unfold form_after.
    destruct (spec_all_rules is_email (values (form w))) eqn:Hrules.
    - rewrite (onSubmit_valid _ _ w Hrules). simpl.
      pose proof (isEmptyObject_zodResolver is_email (values (form w))) as H.
      rewrite Hrules in H. apply bool_decide_eq_true_1 in H.
      rewrite H. reflexivity.
    - rewrite (onSubmit_invalid _ _ w Hrules). reflexivity. }
  rewrite Hform. split; [reflexivity|]. split; [|reflexivity].
  intros Hrules. simpl.
  pose proof (isEmptyObject_zodResolver is_email (values (form w))) as H.
  rewrite Hrules in H. apply bool_decide_eq_true_1 in H. exact H.
Qed.

(** X7: writing a loaded record into the form emits nothing and replaces
    whatever the form held; of two loads the later one wins; and a load
    that follows a submission, accepted or not, leaves the form without
    any field message and with the Disabled button. *)
Theorem populate_overwrites (d1 d2 : ShelterData) (w : World Err) :
  emitted (populate false (Some d2)) w = []
  /\ (populate false (Some d1) ;;; populate false (Some d2)) w
     = populate false (Some d2) w
  /\ shown_after (onSubmit httpClient_put is_email ;;;
                  populate false (Some d2)) w
     = Some {| name_error := None; email_error := None;
               phone_error := None; whatsApp_error := None;
               button_variant := Disabled |}.
Proof.
  split; [|split].
  - pose proof (populate_run d2 w) as Hrun.
    apply emitted_of_silent_run in Hrun as (Hev & _ & _). exact Hev.
  - reflexivity.
  - unfold shown_after, form_after, bind.
    destruct (spec_all_rules is_email (values (form w))) eqn:Hrules.
    + rewrite (onSubmit_valid _ _ w Hrules). rewrite populate_run. simpl form.
      unfold Shelter_render. simpl. reflexivity.
    + rewrite (onSubmit_invalid _ _ w Hrules). rewrite populate_run.
      simpl form. unfold Shelter_render. simpl. reflexivity.
Qed.

End WorkflowProperties.

(** ** Normalisation of the two numbers *)

Lemma replace_non_digits_app (l1 l2 : jsstring) :
  replace_non_digits (l1 ++ l2)%list
  = (replace_non_digits l1 ++ replace_non_digits l2)%list.
Proof. apply List.filter_app. Qed.

Lemma replace_non_digits_fixed (v : jsstring) :
  Forall (fun c => is_digit c = true) v -> replace_non_digits v = v.
Proof.
  induction 1 as [|c r Hc _ IH]; simpl; [reflexivity|].
  rewrite Hc, IH. reflexivity.
Qed.

(** X5: the body built from the values keeps name and email as they are;
    each number in it is a subsequence of the number entered that holds
    as many digits as the entry does, so digits are neither lost,
    reordered nor added; a number entered as digits only is sent as
    entered, and building the body again from a body changes nothing. *)
Theorem request_normalisation (v : ShelterSchema) :
  req_name (request_of v) = name v
  /\ req_email (request_of v) = email v
  /\ sublist (req_phone (request_of v)) (phone v)
  /\ digit_count (req_phone (request_of v)) = digit_count (phone v)
  /\ sublist (req_whatsApp (request_of v)) (whatsApp v)
  /\ digit_count (req_whatsApp (request_of v)) = digit_count (whatsApp v)
  /\ (Forall (fun c => is_digit c = true) (phone v) ->
      req_phone (request_of v) = phone v)
  /\ (Forall (fun c => is_digit c = true) (whatsApp v) ->
      req_whatsApp (request_of v) = whatsApp v)
  /\ request_of {| name := req_name (request_of v);
                   email := req_email (request_of v);
                   phone := req_phone (request_of v);
                   whatsApp := req_whatsApp (request_of v) |}
     = request_of v.
Proof.
  unfold request_of. simpl.
  repeat split;
    try apply replace_non_digits_sublist;
    try apply replace_non_digits_fixed.
  - rewrite <- !replace_non_digits_length.
    rewrite replace_non_digits_idempotent. reflexivity.
  - rewrite <- !replace_non_digits_length.
    rewrite replace_non_digits_idempotent. reflexivity.
  - rewrite !replace_non_digits_idempotent. reflexivity.
Qed.

(** X8: a character that is not a digit, wherever it stands in the phone
    field or in the whatsApp field, changes neither the errors the
    resolver reports nor the body that is sent. *)
Theorem formatting_is_ignored (is_email : jsstring -> bool)
  (n e other l1 l2 : jsstring) (c : code_unit) :
  is_digit c = false ->
  (zodResolver is_email
     {| name := n; email := e; phone := (l1 ++ c :: l2)%list;
        whatsApp := other |}
   = zodResolver is_email
       {| name := n; email := e; phone := (l1 ++ l2)%list;
          whatsApp := other |}
   /\ request_of
        {| name := n; email := e; phone := (l1 ++ c :: l2)%list;
           whatsApp := other |}
      = request_of
          {| name := n; email := e; phone := (l1 ++ l2)%list;
             whatsApp := other |})
  /\ (zodResolver is_email
        {| name := n; email := e; phone := other;
           whatsApp := (l1 ++ c :: l2)%list |}
      = zodResolver is_email
          {| name := n; email := e; phone := other;
             whatsApp := (l1 ++ l2)%list |}
      /\ request_of
           {| name := n; email := e; phone := other;
              whatsApp := (l1 ++ c :: l2)%list |}
         = request_of
             {| name := n; email := e; phone := other;
                whatsApp := (l1 ++ l2)%list |}).
Proof.
  intros Hc.
  assert (Hstrip : replace_non_digits (l1 ++ c :: l2)%list
                   = replace_non_digits (l1 ++ l2)%list).
  { rewrite !replace_non_digits_app. simpl. rewrite Hc. reflexivity. }
  unfold zodResolver, shelterSchema, z_refine, digits_in_range, request_of.
  simpl. rewrite Hstrip. repeat split; reflexivity.
Qed.

(** ** The schema's issues *)

Lemma parseErrorSchema_origin (issues : list ZodIssue) (k m : string) :
  parseErrorSchema issues !! k = Some m ->
  exists i : ZodIssue, In i issues /\ path i = k /\ message i = m.
Proof.
  rewrite parseErrorSchema_lookup. intros Hm.
  destruct (List.find _ issues) as [i|] eqn:Hfind; [|discriminate].
  apply find_some in Hfind as [Hin Hp]. apply bool_decide_eq_true in Hp.
  injection Hm as Hm. exists i. auto.
Qed.

(** X9: the resolver reports errors on the four fields of the form only,
    each with a message the schema gives for that field; so every error
    that blocks a submission has a place in the form where it is shown. *)
Theorem resolver_error_fields (is_email : jsstring -> bool)
  (v : ShelterSchema) (k m : string) :
  zodResolver is_email v !! k = Some m ->
  (k = "name" /\ (m = "Nome deve ter no minínimo 2 caracteres"
                  \/ m = "Nome deve ter no máximo 30 caracteres"))
  \/ (k = "email" /\ m = "Campo deve ser um email")
  \/ (k = "phone" /\ m = "Número deve ter entre 10 e 11 caracteres")
  \/ (k = "whatsApp" /\ m = "Número deve ter entre 10 e 11 caracteres").
Proof.
  intros Hk. apply parseErrorSchema_origin in Hk as (i & Hin & <- & <-).
  unfold shelterSchema, z_min, z_max, z_refine in Hin.
  rewrite !in_app_iff in Hin.
  destruct (length (name v) <? 2), (30 <? length (name v)),
    (is_email (email v)), (digits_in_range (phone v)),
    (digits_in_range (whatsApp v));
    simpl in Hin; intuition (subst; simpl; auto).
Qed.

(** X10: the schema never raises two issues on one field, since a name
    cannot be both shorter than 2 and longer than 30; there are at most
    four issues, and the resolver shows every one of them. *)
Theorem schema_one_issue_per_field (is_email : jsstring -> bool)
  (v : ShelterSchema) :
  NoDup (List.map path (shelterSchema is_email v))
  /\ length (shelterSchema is_email v) <= 4
  /\ forall i : ZodIssue,
      In i (shelterSchema is_email v) ->
      zodResolver is_email v !! path i = Some (message i).
Proof.
  assert (Hexcl : (length (name v) <? 2) && (30 <? length (name v)) = false).
  { destruct (Nat.ltb_spec (length (name v)) 2);
      destruct (Nat.ltb_spec 30 (length (name v))); simpl; try reflexivity.
    lia. }
  unfold zodResolver. setoid_rewrite parseErrorSchema_lookup.
  unfold shelterSchema, z_min, z_max, z_refine.
  destruct (length (name v) <? 2), (30 <? length (name v));
    try discriminate Hexcl;
    destruct (is_email (email v)), (digits_in_range (phone v)),
      (digits_in_range (whatsApp v)); simpl;
    (split; [apply (bool_decide_unpack _); reflexivity|]);
    (split; [lia|]);
    intros i Hi; intuition (subst; reflexivity).
Qed.

(** X11: the error of a field depends on the value of that field alone:
    two forms that agree on a field agree on its error, whatever their
    other fields hold. *)
Theorem field_errors_are_local (is_email : jsstring -> bool)
  (v v' : ShelterSchema) :
  (name v = name v' ->
   zodResolver is_email v !! "name" = zodResolver is_email v' !! "name")
  /\ (email v = email v' ->
      zodResolver is_email v !! "email" = zodResolver is_email v' !! "email")
  /\ (phone v = phone v' ->
      zodResolver is_email v !! "phone" = zodResolver is_email v' !! "phone")
  /\ (whatsApp v = whatsApp v' ->
      zodResolver is_email v !! "whatsApp"
      = zodResolver is_email v' !! "whatsApp").
Proof.
  rewrite !zodResolver_name, !zodResolver_email, !zodResolver_phone,
    !zodResolver_whatsApp.
  repeat split; intros ->; reflexivity.
Qed.

(** ** More on the Select primitive *)

Lemma option_keys (l : list SelectOption) :
  List.map node_key (List.map render_option l)
  = List.map Some (List.map value l).
Proof. rewrite !List.map_map. reflexivity. Qed.

Lemma option_refs (l : list SelectOption) :
  flat_map node_refs (List.map render_option l)
  = List.map (fun _ => ("option", None)) l.
Proof.
  induction l as [|o r IH]; simpl; [reflexivity|].
  rewrite IH. reflexivity.
Qed.

(** X12: every option of a rendered Select has a key, the value of its
    entry; so the keys of the options are pairwise distinct exactly when
    the values of the entries are, and the key of an entry does not
    depend on its text or on its place in the list. *)
Theorem select_option_keys (styles : SelectStyles) (p : ISelect)
  (ref : Ref) :
  exists sel : Node,
    select_element (FowardedSelect styles p ref) = Some sel
    /\ List.map node_key (node_children sel)
       = List.map (fun o => Some (value o)) (options p)
    /\ (NoDup (List.map node_key (node_children sel))
        <-> NoDup (List.map value (options p))).
Proof.
  eexists. split; [reflexivity|]. simpl. split.
  - rewrite List.map_map. reflexivity.
  - rewrite option_keys. apply (NoDup_fmap Some).
Qed.

(** X13: the ref handed to the component reaches the native select and
    no other element: the tree is a [div], a [label], the [select] with
    the ref, and one [option] per entry, none of these others carrying a
    ref. *)
Theorem select_ref_forwarded (styles : SelectStyles) (p : ISelect)
  (ref : Ref) :
  node_refs (FowardedSelect styles p ref)
  = ([("div", None); ("label", None); ("select", ref)]
     ++ List.map (fun _ => ("option", None)) (options p))%list.
Proof.
  unfold FowardedSelect. simpl. rewrite option_refs, app_nil_r. reflexivity.
Qed.

(** ** The further properties at sample data *)

Lemma sent_body_well_formed_sample :
  In ("/shelter", request_of (values_of sample_record))
     (requests (emitted (onSubmit echo_server has_at)
                  (world_with (values_of sample_record))))
  /\ 10 <= length (req_phone (request_of (values_of sample_record))) <= 11.
Proof.
  assert (Hin : In ("/shelter", request_of (values_of sample_record))
                   (requests (emitted (onSubmit echo_server has_at)
                                (world_with (values_of sample_record)))))
    by (left; reflexivity).
  split; [exact Hin|].
  apply (sent_body_well_formed echo_server has_at
           (world_with (values_of sample_record)) _ _ Hin).
Defined.

Lemma request_normalisation_sample :
  Forall (fun c => is_digit c = true) (js "1133334444")
  /\ req_phone (request_of
                  {| name := []; email := []; phone := js "1133334444";
                     whatsApp := [] |})
     = js "1133334444".
Proof.
  assert (Hdigits : Forall (fun c => is_digit c = true) (js "1133334444"))
    by (repeat constructor).
  split; [exact Hdigits|].
  destruct (request_normalisation
              {| name := []; email := []; phone := js "1133334444";
                 whatsApp := [] |})
    as (_ & _ & _ & _ & _ & _ & Hfixed & _).
  apply Hfixed. exact Hdigits.
Defined.

Lemma onSubmit_form_state_sample :
  spec_all_rules has_at (values (form (world_with (values_of sample_record))))
  = true
  /\ errors (form_after (onSubmit echo_server has_at)
               (world_with (values_of sample_record))) = ∅.
Proof.
  split; [reflexivity|].
  destruct (onSubmit_form_state echo_server has_at
              (world_with (values_of sample_record))) as (_ & Hclear & _).
  apply Hclear. reflexivity.
Defined.

Lemma formatting_is_ignored_sample :
  is_digit 45%N = false
  /\ request_of
       {| name := []; email := [];
          phone := (js "113333" ++ 45%N :: js "4444")%list; whatsApp := [] |}
     = request_of
         {| name := []; email := [];
            phone := (js "113333" ++ js "4444")%list; whatsApp := [] |}.
Proof.
  split; [reflexivity|].
  apply (formatting_is_ignored has_at [] [] [] (js "113333") (js "4444") 45%N).
  reflexivity.
Defined.

Lemma resolver_error_fields_sample :
  zodResolver has_at bad_phone_values !! "phone"
  = Some "Número deve ter entre 10 e 11 caracteres"
  /\ (("phone" = "name"
       /\ ("Número deve ter entre 10 e 11 caracteres"
           = "Nome deve ter no minínimo 2 caracteres"
           \/ "Número deve ter entre 10 e 11 caracteres"
              = "Nome deve ter no máximo 30 caracteres"))
      \/ ("phone" = "email"
          /\ "Número deve ter entre 10 e 11 caracteres"
             = "Campo deve ser um email")
      \/ ("phone" = "phone"
          /\ "Número deve ter entre 10 e 11 caracteres"
             = "Número deve ter entre 10 e 11 caracteres")
      \/ ("phone" = "whatsApp"
          /\ "Número deve ter entre 10 e 11 caracteres"
             = "Número deve ter entre 10 e 11 caracteres")).
Proof.
  split; [reflexivity|].
  apply (resolver_error_fields has_at bad_phone_values "phone"
           "Número deve ter entre 10 e 11 caracteres").
  reflexivity.
Defined.

Lemma schema_one_issue_per_field_sample :
  In (mkIssue "phone" "Número deve ter entre 10 e 11 caracteres")
     (shelterSchema has_at bad_phone_values)
  /\ zodResolver has_at bad_phone_values !! "phone"
     = Some "Número deve ter entre 10 e 11 caracteres".
Proof.
  assert (Hin : In (mkIssue "phone" "Número deve ter entre 10 e 11 caracteres")
                   (shelterSchema has_at bad_phone_values))
    by (left; reflexivity).
  split; [exact Hin|].
  destruct (schema_one_issue_per_field has_at bad_phone_values)
    as (_ & _ & Hshown).
  apply (Hshown _ Hin).
Defined.

Lemma field_errors_are_local_sample :
  phone bad_phone_values
  = phone {| name := []; email := []; phone := js "ramal 12";
             whatsApp := [] |}
  /\ zodResolver has_at bad_phone_values !! "phone"
     = zodResolver has_at
         {| name := []; email := []; phone := js "ramal 12";
            whatsApp := [] |} !! "phone".
Proof.
  split; [reflexivity|].
  destruct (field_errors_are_local has_at bad_phone_values
              {| name := []; email := []; phone := js "ramal 12";
                 whatsApp := [] |}) as (_ & _ & Hphone & _).
  apply Hphone. reflexivity.
Defined.
